(** * MAX! thermostat climate entity (maxcul/climate.py)

    A shallow embedding of the [MaxThermostat] entity: the Python values it
    stores and forwards, the update handler registered in
    [async_added_to_hass], the derived [hvac_mode] / [preset_mode]
    properties and the command methods that call into the shared
    connection object. *)

From Stdlib Require Import ZArith Lia Bool.
From Stdlib Require Import Floats.PrimFloat Floats.SpecFloat Floats.FloatOps.
From stdpp Require Import base option list strings gmap.

Local Open Scope Z_scope.

(** ** Python values *)

Module Py.

(** The values that travel through the entity: payload entries, stored
    attributes and command arguments.  [float] is the IEEE binary64 type,
    which is what a Python float is. *)
Inductive value : Type :=
  | None
  | Bool (b : bool)
  | Int (z : Z)
  | Float (f : float)
  | Str (s : string).

(** [bool] is a subclass of [int]: [True] and [False] compare as 1 and 0. *)
Inductive number : Type :=
  | NInt (z : Z)
  | NFloat (f : float).

Definition as_number (v : value) : option number :=
  match v with
  | Bool b => Some (NInt (Z.b2z b))
  | Int z => Some (NInt z)
  | Float f => Some (NFloat f)
  | None | Str _ => Datatypes.None
  end.

(** Python compares an int with a float by exact value: the float has to be
    finite and to denote the very same integer. *)
Definition float_eq_int (f : float) (z : Z) : bool :=
  match Prim2SF f with
  | S754_zero _ => Z.eqb z 0
  | S754_finite s m e =>
      let mz := if s then Z.neg m else Z.pos m in
      if Z.leb 0 e then Z.eqb z (mz * 2 ^ e)
      else Z.eqb (z * 2 ^ (- e)) mz
  | S754_infinity _ | S754_nan => false
  end.

Definition number_eq (a b : number) : bool :=
  match a, b with
  | NInt x, NInt y => Z.eqb x y
  | NFloat x, NFloat y => PrimFloat.eqb x y
  | NInt x, NFloat y => float_eq_int y x
  | NFloat x, NInt y => float_eq_int x y
  end.

(** [a == b] *)
Definition eq (a b : value) : bool :=
  match as_number a, as_number b with
  | Some x, Some y => number_eq x y
  | _, _ =>
      match a, b with
      | None, None => true
      | Str s, Str t => String.eqb s t
      | _, _ => false
      end
  end.

(** [a != b] *)
Definition ne (a b : value) : bool := negb (eq a b).

(** [a is None] *)
Definition is_none (v : value) : bool :=
  match v with None => true | _ => false end.

(** Truth value of [v], as tested by [or]. *)
Definition truthy (v : value) : bool :=
  match v with
  | None => false
  | Bool b => b
  | Int z => negb (Z.eqb z 0)
  | Float f => negb (PrimFloat.eqb f 0%float)
  | Str s => negb (String.eqb s "")
  end.

(** [a or b] *)
Definition or (a b : value) : value := if truthy a then a else b.

(** [x in l] for a list [l] of strings. An element is found by identity or
    by [==]; for string elements the two agree. *)
Definition in_strs (x : value) (l : list string) : bool :=
  existsb (fun s => eq x (Str s)) l.

(** [d.get(k)] on a dict with string keys: the entry, or [None]. *)
Definition get (d : gmap string value) (k : string) : value :=
  default None (d !! k).

End Py.

(** ** Imported names

    The entity reads its protocol constants from the [maxcul] library, the
    dispatcher signal from the component package and the climate constants
    from the host framework.  None of those modules belongs to this file,
    so their names are taken as parameters. *)

(** [from maxcul import ...] *)
Class Maxcul : Type := {
  ATTR_DEVICE_ID : string;
  ATTR_DESIRED_TEMPERATURE : string;
  ATTR_MEASURED_TEMPERATURE : string;
  ATTR_MODE : string;
  ATTR_BATTERY_LOW : string;
  MODE_AUTO : string;
  MODE_MANUAL : string;
  MODE_BOOST : string;
  MIN_TEMPERATURE : Py.value;
  MAX_TEMPERATURE : Py.value
}.

(** [from . import ...] *)
Class Component : Type := {
  SIGNAL_THERMOSTAT_UPDATE : string
}.

(** [from homeassistant.const import ...] and
    [from homeassistant.components.climate.const import ...] *)
Class Hass : Type := {
  ATTR_TEMPERATURE : string;
  HVAC_MODE_AUTO : string;
  HVAC_MODE_HEAT : string;
  HVAC_MODE_OFF : string;
  PRESET_BOOST : string;
  PRESET_NONE : string
}.

(** ** The entity and its environment *)

(** Attributes assigned in [__init__]. *)
Record MaxThermostat : Type := {
  _name : string;
  _device_id : Z;
  _current_temperature : Py.value;
  _target_temperature : Py.value;
  _mode : Py.value;
  _battery_low : Py.value
}.

(** Calls that leave the entity: the three methods of the connection
    object, and the two framework functions used by the update hook. *)
Inductive effect : Type :=
  | add_paired_device (device_id : Z)
  | wakeup (device_id : Z)
  | conn_set_temperature (device_id : Z) (temperature mode : Py.value)
  | async_dispatcher_connect (signal : string)
  | async_schedule_update_ha_state.

(** The entity together with the history of outgoing calls.  The
    connection is shared with other entities, the history is therefore
    the connection's, not the entity's. *)
Record world : Type := {
  self : MaxThermostat;
  calls : list effect
}.

Inductive outcome (A : Type) : Type :=
  | Returns (a : A)
  | Raises.
Arguments Returns {A} a.
Arguments Raises {A}.

(** A method body: it reads and writes the world and either returns or
    propagates an exception of a callee. *)
Definition M (A : Type) : Type := world → outcome A * world.

#[global] Instance M_ret : MRet M := λ A a w, (Returns a, w).

#[global] Instance M_bind : MBind M := λ A B k m w,
  match m w with
  | (Returns a, w') => k a w'
  | (Raises, w') => (Raises, w')
  end.

Definition get_self : M MaxThermostat := λ w, (Returns (self w), w).

Definition assign (f : MaxThermostat → MaxThermostat) : M unit :=
  λ w, (Returns tt, {| self := f (self w); calls := calls w |}).

Definition when (b : bool) (m : M unit) : M unit :=
  if b then m else mret tt.

Definition set_current_temperature (v : Py.value) (s : MaxThermostat) :=
  {| _name := _name s; _device_id := _device_id s;
     _current_temperature := v;
     _target_temperature := _target_temperature s;
     _mode := _mode s; _battery_low := _battery_low s |}.

Definition set_target_temperature (v : Py.value) (s : MaxThermostat) :=
  {| _name := _name s; _device_id := _device_id s;
     _current_temperature := _current_temperature s;
     _target_temperature := v;
     _mode := _mode s; _battery_low := _battery_low s |}.

Definition set_mode (v : Py.value) (s : MaxThermostat) :=
  {| _name := _name s; _device_id := _device_id s;
     _current_temperature := _current_temperature s;
     _target_temperature := _target_temperature s;
     _mode := v; _battery_low := _battery_low s |}.

Definition set_battery_low (v : Py.value) (s : MaxThermostat) :=
  {| _name := _name s; _device_id := _device_id s;
     _current_temperature := _current_temperature s;
     _target_temperature := _target_temperature s;
     _mode := _mode s; _battery_low := v |}.

(** One set of values for the imported names, on which the model is run:
    distinct keys, distinct mode names, and 4.5 to 30.5 degrees. *)
Definition pymaxcul : Maxcul := {|
  ATTR_DEVICE_ID := "device_id";
  ATTR_DESIRED_TEMPERATURE := "desired_temperature";
  ATTR_MEASURED_TEMPERATURE := "measured_temperature";
  ATTR_MODE := "mode";
  ATTR_BATTERY_LOW := "battery_low";
  MODE_AUTO := "auto";
  MODE_MANUAL := "manual";
  MODE_BOOST := "boost";
  MIN_TEMPERATURE := Py.Float 4.5%float;
  MAX_TEMPERATURE := Py.Float 30.5%float
|}.

Definition component : Component := {|
  SIGNAL_THERMOSTAT_UPDATE := "maxcul.thermostat_update"
|}.

Definition homeassistant : Hass := {|
  ATTR_TEMPERATURE := "temperature";
  HVAC_MODE_AUTO := "auto";
  HVAC_MODE_HEAT := "heat";
  HVAC_MODE_OFF := "off";
  PRESET_BOOST := "boost";
  PRESET_NONE := "none"
|}.

(** A connection and a framework whose calls never raise, and ones whose
    calls all do. *)
Definition never_fails : list effect → effect → bool := λ _ _, false.
Definition always_fails : list effect → effect → bool := λ _ _, true.

(** A thermostat that has been reporting for a while, and one that was
    constructed a moment ago. *)
Definition living_room : MaxThermostat := {|
  _name := "living room";
  _device_id := 7;
  _current_temperature := Py.Float 19.5%float;
  _target_temperature := Py.Float 21%float;
  _mode := Py.Str "auto";
  _battery_low := Py.Bool false
|}.

Definition attic : MaxThermostat := {|
  _name := "attic";
  _device_id := 9;
  _current_temperature := Py.None;
  _target_temperature := Py.None;
  _mode := Py.None;
  _battery_low := Py.Bool false
|}.

(** The world in which only [living_room] has been paired. *)
Definition at_home : world :=
  {| self := living_room; calls := [add_paired_device 7] |}.

(** Payloads as the dispatcher hands them to [update]. *)
Definition measured_only : gmap string Py.value :=
  <["device_id" := Py.Int 7]>
    (<["measured_temperature" := Py.Float 20.5%float]> ∅).

Definition device_id_only : gmap string Py.value :=
  <["device_id" := Py.Int 7]> ∅.

Definition for_the_attic : gmap string Py.value :=
  <["device_id" := Py.Int 9]>
    (<["desired_temperature" := Py.Float 17%float]>
       (<["mode" := Py.Str "manual"]> ∅)).

(** Keyword arguments as the framework hands them to [set_temperature]. *)
Definition target_22 : gmap string Py.value :=
  <["temperature" := Py.Float 22%float]> ∅.

Definition no_target : gmap string Py.value :=
  <["hvac_mode" := Py.Str "heat"]> ∅.

Section Climate.

Context `{!Maxcul, !Component, !Hass}.

(** Whether a call into the connection or the framework raises, given the
    calls made before it.  Nothing is assumed about it. *)
Variable fails : list effect → effect → bool.

(** Make an outgoing call: it is recorded, then it returns or raises. *)
Definition perform (e : effect) : M unit := λ w,
  let w' := {| self := self w; calls := calls w ++ [e] |} in
  if fails (calls w) e then (Raises, w') else (Returns tt, w').

(** [MaxThermostat.__init__] *)
Definition __init__ (device_id : Z) (name : string) : M unit :=
  assign (λ _, {| _name := name;
                  _device_id := device_id;
                  _current_temperature := Py.None;
                  _target_temperature := Py.None;
                  _mode := Py.None;
                  _battery_low := Py.Bool false |});;
  s ← get_self;
  perform (add_paired_device (_device_id s)).

(** The [update] callback defined in [async_added_to_hass]. *)
Definition update (payload : gmap string Py.value) : M unit :=
  s ← get_self;
  let device_id := Py.get payload ATTR_DEVICE_ID in
  if Py.ne device_id (Py.Int (_device_id s)) then mret tt else
  let current_temperature := Py.get payload ATTR_MEASURED_TEMPERATURE in
  let target_temperature := Py.get payload ATTR_DESIRED_TEMPERATURE in
  let mode := Py.get payload ATTR_MODE in
  let battery_low := Py.get payload ATTR_BATTERY_LOW in
  when (negb (Py.is_none current_temperature))
       (assign (set_current_temperature current_temperature));;
  when (negb (Py.is_none target_temperature))
       (assign (set_target_temperature target_temperature));;
  when (negb (Py.is_none mode))
       (assign (set_mode mode));;
  when (negb (Py.is_none battery_low))
       (assign (set_battery_low battery_low));;
  perform async_schedule_update_ha_state.

(** [MaxThermostat.async_added_to_hass] *)
Definition async_added_to_hass : M unit :=
  perform (async_dispatcher_connect SIGNAL_THERMOSTAT_UPDATE);;
  s ← get_self;
  perform (wakeup (_device_id s)).

(** [MaxThermostat.set_temperature] *)
Definition set_temperature (kwargs : gmap string Py.value) : M unit :=
  let target_temperature := Py.get kwargs ATTR_TEMPERATURE in
  if Py.is_none target_temperature then mret tt else
  s ← get_self;
  perform (conn_set_temperature
             (_device_id s)
             target_temperature
             (Py.or (_mode s) (Py.Str MODE_MANUAL))).

(** [MaxThermostat.hvac_mode] *)
Definition hvac_mode (s : MaxThermostat) : string :=
  if Py.in_strs (_mode s) [MODE_AUTO; MODE_BOOST] then HVAC_MODE_AUTO
  else if Py.eq (_mode s) (Py.Str MODE_MANUAL)
          && Py.eq (_target_temperature s) MIN_TEMPERATURE
  then HVAC_MODE_OFF
  else HVAC_MODE_HEAT.

(** [MaxThermostat.set_hvac_mode] *)
Definition set_hvac_mode (hvac_mode : string) : M unit :=
  s ← get_self;
  if String.eqb hvac_mode HVAC_MODE_OFF then
    perform (conn_set_temperature
               (_device_id s) MIN_TEMPERATURE (Py.Str MODE_MANUAL))
  else if String.eqb hvac_mode HVAC_MODE_AUTO then
    perform (conn_set_temperature
               (_device_id s) (_target_temperature s) (Py.Str MODE_AUTO))
  else
    perform (conn_set_temperature
               (_device_id s) (_target_temperature s) (Py.Str MODE_MANUAL)).

(** [MaxThermostat.preset_mode] *)
Definition preset_mode (s : MaxThermostat) : string :=
  if Py.eq (_mode s) (Py.Str MODE_BOOST) then PRESET_BOOST else PRESET_NONE.

(** [MaxThermostat.set_preset_mode] *)
Definition set_preset_mode (preset_mode : string) : M unit :=
  if String.eqb preset_mode PRESET_BOOST then
    s ← get_self;
    perform (conn_set_temperature
               (_device_id s) (_target_temperature s) (Py.Str MODE_BOOST))
  else mret tt.

(** The entry points through which the framework and the dispatcher reach
    a constructed entity. *)
Inductive method : Type :=
  | AsyncAddedToHass
  | Update (payload : gmap string Py.value)
  | SetTemperature (kwargs : gmap string Py.value)
  | SetHvacMode (hvac_mode : string)
  | SetPresetMode (preset_mode : string).

Definition invoke (m : method) : M unit :=
  match m with
  | AsyncAddedToHass => async_added_to_hass
  | Update payload => update payload
  | SetTemperature kwargs => set_temperature kwargs
  | SetHvacMode mode => set_hvac_mode mode
  | SetPresetMode mode => set_preset_mode mode
  end.

(** A run of the entity: the calls are made one after the other, and an
    exception of one of them is the caller's, the entity lives on. *)
Fixpoint drive (ms : list method) (w : world) : world :=
  match ms with
  | [] => w
  | m :: ms' => drive ms' (invoke m w).2
  end.

(** The commands of the connection that name a device. *)
Definition command_for (device_id : Z) (e : effect) : Prop :=
  match e with
  | add_paired_device _ => False
  | wakeup d | conn_set_temperature d _ _ => d = device_id
  | async_dispatcher_connect _ | async_schedule_update_ha_state => True
  end.

(** A world after one more outgoing call. *)
Definition sent (w : world) (e : effect) : world :=
  {| self := self w; calls := calls w ++ [e] |}.

(** What every entry point keeps: the device id, the calls already made,
    and the device named by whatever it adds to them. *)
Definition extends (w w' : world) : Prop :=
  _device_id (self w') = _device_id (self w)
  ∧ ∃ added, calls w' = calls w ++ added
             ∧ Forall (command_for (_device_id (self w))) added.

(** The merge of one payload entry into a stored attribute. *)
Definition merged (old new : Py.value) : Py.value :=
  if Py.is_none new then old else new.

End Climate.

(** ** The remaining properties of the entity, and the platform set-up *)

(** [from homeassistant.const import ...], the names used outside the
    command methods. *)
Class HassConf : Type := {
  ATTR_BATTERY_LEVEL : string
}.

(** [from . import DATA_MAXCUL_CONNECTION] *)
Class ComponentData : Type := {
  DATA_MAXCUL_CONNECTION : string
}.

Definition homeassistant_conf : HassConf := {|
  ATTR_BATTERY_LEVEL := "battery_level"
|}.

Definition component_data : ComponentData := {|
  DATA_MAXCUL_CONNECTION := "maxcul_connection"
|}.

(** One entry of the devices dict as [DEVICE_SCHEMA] lets it through: an
    integer under [CONF_ID], which is required, and possibly a string
    under [CONF_NAME]. *)
Record device : Type := {
  conf_id : Z;
  conf_name : option string
}.

(** The devices of a validated platform configuration, in the order of the
    dict: [None] when the configuration has no [CONF_DEVICES] key. *)
Definition devices_config : Type := option (list (string * device)).

(** An object on which [__init__] has not run yet. None of its attributes
    is ever read: [__init__] assigns all six. *)
Definition unset : MaxThermostat := {|
  _name := "";
  _device_id := 0;
  _current_temperature := Py.None;
  _target_temperature := Py.None;
  _mode := Py.None;
  _battery_low := Py.None
|}.

(** The attributes of an entity when [__init__] is through with it. *)
Definition fresh (device_id : Z) (name : string) : MaxThermostat := {|
  _name := name;
  _device_id := device_id;
  _current_temperature := Py.None;
  _target_temperature := Py.None;
  _mode := Py.None;
  _battery_low := Py.Bool false
|}.

(** The entity after [update] has taken in a payload addressed to it. *)
Definition absorbed `{!Maxcul} (payload : gmap string Py.value)
    (s : MaxThermostat) : MaxThermostat := {|
  _name := _name s;
  _device_id := _device_id s;
  _current_temperature :=
    merged (_current_temperature s) (Py.get payload ATTR_MEASURED_TEMPERATURE);
  _target_temperature :=
    merged (_target_temperature s) (Py.get payload ATTR_DESIRED_TEMPERATURE);
  _mode := merged (_mode s) (Py.get payload ATTR_MODE);
  _battery_low := merged (_battery_low s) (Py.get payload ATTR_BATTERY_LOW)
|}.

(** Whether a payload passes the device id test of [update]. *)
Definition addressed `{!Maxcul} (payload : gmap string Py.value)
    (s : MaxThermostat) : bool :=
  Py.eq (Py.get payload ATTR_DEVICE_ID) (Py.Int (_device_id s)).

(** The attributes that [update] writes, each with the payload key it is
    read from. *)
Definition attribute_keys `{!Maxcul}
    : list ((MaxThermostat → Py.value) * string) :=
  [(_current_temperature, ATTR_MEASURED_TEMPERATURE);
   (_target_temperature, ATTR_DESIRED_TEMPERATURE);
   (_mode, ATTR_MODE);
   (_battery_low, ATTR_BATTERY_LOW)].

(** An entry point that brings no desired temperature: any but an update
    whose payload has one. *)
Definition without_target `{!Maxcul} (m : method) : Prop :=
  match m with
  | Update payload => Py.get payload ATTR_DESIRED_TEMPERATURE = Py.None
  | _ => True
  end.

(** Whether an entry point is the update handler. *)
Definition is_update (m : method) : bool :=
  match m with Update _ => true | _ => false end.

(** What [setup_platform] acts on: the calls made on the connection, and
    the lists of entities handed to [add_entities], one list per call. *)
Record platform : Type := {
  connection_calls : list effect;
  added_entities : list (list MaxThermostat)
}.

Section Platform.

Context `{!Maxcul, !Component, !Hass, !HassConf, !ComponentData}.
Variable fails : list effect → effect → bool.

(** [MaxThermostat.name] *)
Definition name (s : MaxThermostat) : string := _name s.

(** [MaxThermostat.unique_id] *)
Definition unique_id (s : MaxThermostat) : Z := _device_id s.

(** [MaxThermostat.device_state_attributes] *)
Definition device_state_attributes (s : MaxThermostat) : gmap string Py.value :=
  {[ ATTR_BATTERY_LEVEL :=
       Py.Int (if Py.truthy (_battery_low s) then 5 else 100) ]}.

(** [MaxThermostat.max_temp] and [MaxThermostat.min_temp] *)
Definition max_temp : Py.value := MAX_TEMPERATURE.
Definition min_temp : Py.value := MIN_TEMPERATURE.

(** [MaxThermostat.current_temperature] and
    [MaxThermostat.target_temperature] *)
Definition current_temperature (s : MaxThermostat) : Py.value :=
  _current_temperature s.
Definition target_temperature (s : MaxThermostat) : Py.value :=
  _target_temperature s.

(** [MaxThermostat.hvac_modes] *)
Definition hvac_modes : list string :=
  [HVAC_MODE_AUTO; HVAC_MODE_HEAT; HVAC_MODE_OFF].

(** [MaxThermostat.preset_modes] *)
Definition preset_modes : list string := [PRESET_BOOST; PRESET_NONE].

(** The expression [MaxThermostat(maxcul_connection, device_id, name)]: a
    new object goes through [__init__], and is the value of the expression
    unless [__init__] raises.  The connection is the one whose calls are
    recorded. *)
Definition MaxThermostat_new (device_id : Z) (name : string)
    (history : list effect) : outcome MaxThermostat * list effect :=
  match __init__ fails device_id name {| self := unset; calls := history |} with
  | (Returns _, w) => (Returns (self w), calls w)
  | (Raises, w) => (Raises, calls w)
  end.

(** The list comprehension of [setup_platform]: one entity per item of the
    devices dict, in its order, named after the key unless the entry has a
    name of its own. *)
Fixpoint construct_devices (items : list (string * device))
    (history : list effect) : outcome (list MaxThermostat) * list effect :=
  match items with
  | [] => (Returns [], history)
  | (key, d) :: rest =>
      match MaxThermostat_new (conf_id d) (default key (conf_name d)) history with
      | (Returns entity, history') =>
          match construct_devices rest history' with
          | (Returns entities, history'') =>
              (Returns (entity :: entities), history'')
          | (Raises, history'') => (Raises, history'')
          end
      | (Raises, history') => (Raises, history')
      end
  end.

(** The pairing call and the entity that a configuration item stands for. *)
Definition pairing_of (item : string * device) : effect :=
  add_paired_device (conf_id item.2).

Definition entity_of (item : string * device) : MaxThermostat :=
  fresh (conf_id item.2) (default item.1 (conf_name item.2)).

(** Whether [add_entities] raises, given the platform at the time of the
    call and the entities passed.  Nothing is assumed about it. *)
Variable add_entities_fails : platform → list MaxThermostat → bool.

(** [add_entities(devices)]: the call is recorded with its argument, then
    it returns or raises. *)
Definition add_entities (devices : list MaxThermostat) (p : platform)
    : outcome unit * platform :=
  (if add_entities_fails p devices then Raises else Returns tt,
   {| connection_calls := connection_calls p;
      added_entities := added_entities p ++ [devices] |}).

(** [setup_platform].  [hass_data] is the set of keys of [hass.data]; a
    missing key makes the subscript raise. *)
Definition setup_platform (hass_data : gset string) (config : devices_config)
    (p : platform) : outcome unit * platform :=
  match config with
  | None => (Returns tt, p)
  | Some items =>
      if decide (DATA_MAXCUL_CONNECTION ∈ hass_data) then
        match construct_devices items (connection_calls p) with
        | (Returns devices, history') =>
            add_entities devices
              {| connection_calls := history';
                 added_entities := added_entities p |}
        | (Raises, history') =>
            (Raises, {| connection_calls := history';
                        added_entities := added_entities p |})
        end
      else (Raises, p)
  end.

(** Whether the pairing of the item at position [k] raises, when the
    items before it have been paired after [history]. *)
Definition pairing_raises (history : list effect)
    (items : list (string * device)) (k : nat) : bool :=
  match items !! k with
  | Some item =>
      fails (history ++ map pairing_of (take k items)) (pairing_of item)
  | None => false
  end.

End Platform.

(** A configuration with two devices, the second without a name. *)
Definition two_devices : list (string * device) :=
  [("living", {| conf_id := 7; conf_name := Some "living room" |});
   ("attic", {| conf_id := 9; conf_name := None |})].

(** A third device behind them. *)
Definition three_devices : list (string * device) :=
  two_devices ++ [("cellar", {| conf_id := 11; conf_name := None |})].

(** A platform on which nothing has happened, and one on which device 3
    has been set up before. *)
Definition untouched : platform :=
  {| connection_calls := []; added_entities := [] |}.

Definition after_device_3 : platform :=
  {| connection_calls := [add_paired_device 3];
     added_entities := [[fresh 3 "hall"]] |}.

(** An [add_entities] that returns, and one that raises. *)
Definition add_entities_returns : platform → list MaxThermostat → bool :=
  λ _ _, false.
Definition add_entities_raises : platform → list MaxThermostat → bool :=
  λ _ _, true.

(** [hass.data] once the component has stored its connection. *)
Definition with_connection : gset string := {[ "maxcul_connection" ]}.

(** The living room thermostat in boost mode, and in manual mode at the
    lowest temperature. *)
Definition boosting : MaxThermostat := set_mode (Py.Str "boost") living_room.

Definition frost_guard : MaxThermostat :=
  set_mode (Py.Str "manual")
    (set_target_temperature (Py.Float 4.5%float) living_room).

(** More payloads for device 7. *)
Definition manual_at_min : gmap string Py.value :=
  <["device_id" := Py.Int 7]>
    (<["desired_temperature" := Py.Float 4.5%float]>
       (<["mode" := Py.Str "manual"]> ∅)).

Definition battery_warning : gmap string Py.value :=
  <["device_id" := Py.Float 7%float]>
    (<["battery_low" := Py.Bool true]> ∅).

(** A connection that accepts the pairing of device 7 only. *)
Definition only_seven : list effect → effect → bool := λ _ e,
  match e with
  | add_paired_device d => negb (Z.eqb d 7)
  | _ => false
  end.

(** ** Facts about Python values *)

Lemma py_eq_str (v : Py.value) (s : string) :
  Py.eq v (Py.Str s) = true ↔ v = Py.Str s.
Proof.
  destruct v as [| b | z | f | t]; cbn; try (split; [discriminate | discriminate]).
  rewrite String.eqb_eq. split; [intros ->; reflexivity | intros [= ->]; reflexivity].
Qed.

Lemma py_none_ne_int (z : Z) : Py.ne Py.None (Py.Int z) = true.
Proof. reflexivity. Qed.

Lemma py_is_none (v : Py.value) : Py.is_none v = true ↔ v = Py.None.
Proof. destruct v; cbn; split; (discriminate || reflexivity). Qed.

Lemma py_get_missing (d : gmap string Py.value) (k : string) :
  d !! k = None → Py.get d k = Py.None.
Proof. unfold Py.get. intros ->. reflexivity. Qed.

(** Equality with an int is exact, also for a float: a value equal to
    two ints makes them the same int. *)
Lemma float_eq_int_inj (f : float) (a b : Z) :
  Py.float_eq_int f a = true → Py.float_eq_int f b = true → a = b.
Proof.
  unfold Py.float_eq_int.
  destruct (Prim2SF f) as [s | s | | s m e]; try discriminate.
  - intros Ha Hb. apply Z.eqb_eq in Ha, Hb. congruence.
  - destruct (Z.leb 0 e) eqn:He; intros Ha Hb; apply Z.eqb_eq in Ha, Hb.
    + congruence.
    + apply Z.leb_gt in He.
      apply (Z.mul_reg_r _ _ (2 ^ (- e))); [| congruence].
      apply Z.pow_nonzero; lia.
Qed.

Lemma py_eq_int_inj (v : Py.value) (a b : Z) :
  Py.eq v (Py.Int a) = true → Py.eq v (Py.Int b) = true → a = b.
Proof.
  destruct v as [| c | z | f | t]; cbn; try discriminate.
  - intros Ha Hb. apply Z.eqb_eq in Ha, Hb. congruence.
  - intros Ha Hb. apply Z.eqb_eq in Ha, Hb. congruence.
  - apply float_eq_int_inj.
Qed.

(** Comparison and truth of values, run on the cases the entity meets. *)

Example eq_int_float : Py.eq (Py.Int 7) (Py.Float 7%float) = true.
Proof. reflexivity. Qed.

Example eq_int_float_fraction : Py.eq (Py.Int 4) (Py.Float 4.5%float) = false.
Proof. reflexivity. Qed.

Example eq_bool_int : Py.eq (Py.Bool true) (Py.Int 1) = true.
Proof. reflexivity. Qed.

Example eq_nan : Py.eq (Py.Float nan) (Py.Float nan) = false.
Proof. reflexivity. Qed.

Example eq_str_int : Py.eq (Py.Str "7") (Py.Int 7) = false.
Proof. reflexivity. Qed.

Example or_empty_mode : Py.or (Py.Str "") (Py.Str "manual") = Py.Str "manual".
Proof. reflexivity. Qed.

Example or_none_mode : Py.or Py.None (Py.Str "manual") = Py.Str "manual".
Proof. reflexivity. Qed.

Example or_boost_mode : Py.or (Py.Str "boost") (Py.Str "manual") = Py.Str "boost".
Proof. reflexivity. Qed.

(** ** The update handler *)

Section UpdateHandler.

Context `{!Maxcul}.
Variable fails : list effect → effect → bool.

(** What [update] does with a payload that is addressed to the entity, in
    one equation: the four attributes are merged and the state change is
    announced. *)
Lemma update_addressed (payload : gmap string Py.value) (w : world) :
  Py.eq (Py.get payload ATTR_DEVICE_ID) (Py.Int (_device_id (self w))) = true →
  let s := self w in
  update fails payload w =
  perform fails async_schedule_update_ha_state
    {| self :=
         {| _name := _name s;
            _device_id := _device_id s;
            _current_temperature :=
              merged (_current_temperature s)
                     (Py.get payload ATTR_MEASURED_TEMPERATURE);
            _target_temperature :=
              merged (_target_temperature s)
                     (Py.get payload ATTR_DESIRED_TEMPERATURE);
            _mode := merged (_mode s) (Py.get payload ATTR_MODE);
            _battery_low :=
              merged (_battery_low s) (Py.get payload ATTR_BATTERY_LOW) |};
       calls := calls w |}.
Proof.
  intros Heq. destruct w as [[n d c t m b] log]. cbn in Heq |- *.
  unfold update, mbind, M_bind, get_self, Py.ne, merged. cbn.
  rewrite Heq. cbn.
  destruct (Py.is_none (Py.get payload ATTR_MEASURED_TEMPERATURE));
    destruct (Py.is_none (Py.get payload ATTR_DESIRED_TEMPERATURE));
    destruct (Py.is_none (Py.get payload ATTR_MODE));
    destruct (Py.is_none (Py.get payload ATTR_BATTERY_LOW));
    reflexivity.
Qed.

(** C1. A payload addressed to the entity is merged attribute by
    attribute: each of measured temperature, desired temperature, mode and
    battery-low takes the payload's value when the payload has one that is
    not [None], and keeps its stored value otherwise; name and device id
    are never touched.  In particular a payload without desired temperature
    and mode leaves the stored target temperature and mode as they were. *)
Theorem update_partial_merge (payload : gmap string Py.value) (w : world) :
  Py.eq (Py.get payload ATTR_DEVICE_ID) (Py.Int (_device_id (self w))) = true →
  let s := self w in
  let s' := self (update fails payload w).2 in
  let present k := Py.get payload k ≠ Py.None in
  (* present: overwritten with the payload's value *)
  (present ATTR_MEASURED_TEMPERATURE →
     _current_temperature s' = Py.get payload ATTR_MEASURED_TEMPERATURE) ∧
  (present ATTR_DESIRED_TEMPERATURE →
     _target_temperature s' = Py.get payload ATTR_DESIRED_TEMPERATURE) ∧
  (present ATTR_MODE → _mode s' = Py.get payload ATTR_MODE) ∧
  (present ATTR_BATTERY_LOW →
     _battery_low s' = Py.get payload ATTR_BATTERY_LOW) ∧
  (* absent: the stored value stays *)
  (¬ present ATTR_MEASURED_TEMPERATURE →
     _current_temperature s' = _current_temperature s) ∧
  (¬ present ATTR_DESIRED_TEMPERATURE →
     _target_temperature s' = _target_temperature s) ∧
  (¬ present ATTR_MODE → _mode s' = _mode s) ∧
  (¬ present ATTR_BATTERY_LOW → _battery_low s' = _battery_low s) ∧
  (* the identity of the entity is not part of the merge *)
  _name s' = _name s ∧ _device_id s' = _device_id s.
Proof.
  intros Heq s s' present. subst s'.
  rewrite (update_addressed payload w Heq).
  unfold perform. cbn.
  assert (Hm : ∀ old new, new ≠ Py.None → merged old new = new).
  { intros old [] Hn; try reflexivity. contradiction. }
  assert (Hk : ∀ old new, ¬ new ≠ Py.None → merged old new = old).
  { intros old [] Hn; try (exfalso; apply Hn; discriminate). reflexivity. }
  subst present.
  destruct (fails _ _); cbn;
    repeat split; intros; auto.
Qed.

Lemma update_foreign_equation (payload : gmap string Py.value) (w : world) :
  Py.ne (Py.get payload ATTR_DEVICE_ID) (Py.Int (_device_id (self w))) = true →
  update fails payload w = (Returns tt, w).
Proof.
  intros Hne. unfold update, mbind, M_bind, get_self.
  rewrite Hne. reflexivity.
Qed.

(** C2. A payload whose device id is not the entity's, a payload without
    device id included, is dropped: the handler returns normally, and
    neither the entity nor the history of outgoing calls changes, so no
    state change is announced. *)
Theorem update_foreign_discarded (payload : gmap string Py.value) (w : world) :
  Py.ne (Py.get payload ATTR_DEVICE_ID) (Py.Int (_device_id (self w))) = true
  ∨ payload !! ATTR_DEVICE_ID = None →
  update fails payload w = (Returns tt, w).
Proof.
  intros Hne.
  assert (Hne' : Py.ne (Py.get payload ATTR_DEVICE_ID)
                       (Py.Int (_device_id (self w))) = true).
  { destruct Hne as [Hdiff | Hmiss]; [exact Hdiff |].
    rewrite (py_get_missing _ _ Hmiss). apply py_none_ne_int. }
  exact (update_foreign_equation payload w Hne').
Qed.

(** C3. A payload addressed to the entity always ends in exactly one call
    of [async_schedule_update_ha_state], made after the merge and as the
    handler's last action, whatever the payload carries besides the device
    id: the handler is that one call, made by the entity that has already
    taken the payload in, so that the merge stands whether the call
    returns or raises.  This is so also when all four attributes are
    absent, in which case the call is the handler's only action. *)
Theorem update_schedules_state_change (payload : gmap string Py.value) (w : world) :
  Py.eq (Py.get payload ATTR_DEVICE_ID) (Py.Int (_device_id (self w))) = true →
  let r := update fails payload w in
  calls r.2 = calls w ++ [async_schedule_update_ha_state] ∧
  r.1 = (if fails (calls w) async_schedule_update_ha_state
         then Raises else Returns tt) ∧
  r = perform fails async_schedule_update_ha_state
        {| self := absorbed payload (self w); calls := calls w |} ∧
  self r.2 = absorbed payload (self w) ∧
  (Py.get payload ATTR_MEASURED_TEMPERATURE = Py.None →
   Py.get payload ATTR_DESIRED_TEMPERATURE = Py.None →
   Py.get payload ATTR_MODE = Py.None →
   Py.get payload ATTR_BATTERY_LOW = Py.None →
   r = perform fails async_schedule_update_ha_state w).
Proof.
  intros Heq r. subst r.
  rewrite (update_addressed payload w Heq).
  split; [| split; [| split; [| split]]].
  - unfold perform. cbn. destruct (fails _ _); reflexivity.
  - unfold perform. cbn. destruct (fails _ _); reflexivity.
  - reflexivity.
  - unfold perform. cbn. destruct (fails _ _); reflexivity.
  - intros -> -> -> ->. destruct w as [[n d c t m b] log]. reflexivity.
Qed.

End UpdateHandler.

(** ** Derived modes and commands *)

Section Commands.

Context `{!Maxcul, !Component, !Hass}.
Variable fails : list effect → effect → bool.

Lemma perform_sent (e : effect) (w : world) :
  (perform fails e w).2 = sent w e.
Proof. unfold perform. destruct (fails _ _); reflexivity. Qed.

(** C4. [hvac_mode] is [HVAC_MODE_AUTO] exactly for a stored mode of
    [MODE_AUTO] or [MODE_BOOST], [HVAC_MODE_OFF] exactly for a stored mode
    of [MODE_MANUAL] with a target temperature equal to [MIN_TEMPERATURE],
    and [HVAC_MODE_HEAT] in every other state.  The imported mode names
    are taken to be distinct, as are the three HVAC modes. *)
Theorem hvac_mode_cases (s : MaxThermostat) :
  MODE_MANUAL ≠ MODE_AUTO → MODE_MANUAL ≠ MODE_BOOST →
  HVAC_MODE_AUTO ≠ HVAC_MODE_OFF →
  HVAC_MODE_AUTO ≠ HVAC_MODE_HEAT →
  HVAC_MODE_OFF ≠ HVAC_MODE_HEAT →
  let auto_or_boost :=
    _mode s = Py.Str MODE_AUTO ∨ _mode s = Py.Str MODE_BOOST in
  let manual_at_min :=
    _mode s = Py.Str MODE_MANUAL
    ∧ Py.eq (_target_temperature s) MIN_TEMPERATURE = true in
  (hvac_mode s = HVAC_MODE_AUTO ↔ auto_or_boost) ∧
  (hvac_mode s = HVAC_MODE_OFF ↔ manual_at_min) ∧
  (¬ auto_or_boost → ¬ manual_at_min → hvac_mode s = HVAC_MODE_HEAT).
Proof.
  intros Hma Hmb Hao Hah Hoh auto_or_boost manual_at_min.
  subst auto_or_boost manual_at_min. unfold hvac_mode, Py.in_strs. cbn.
  rewrite orb_false_r.
  destruct (Py.eq (_mode s) (Py.Str MODE_AUTO)) eqn:Ea.
  { apply py_eq_str in Ea. cbn. rewrite Ea.
    split; [tauto |]. split; [| tauto].
    split; [intros Hx; congruence |].
    intros [[= Hx] _]. congruence. }
  destruct (Py.eq (_mode s) (Py.Str MODE_BOOST)) eqn:Eb.
  { apply py_eq_str in Eb. cbn. rewrite Eb.
    split; [tauto |]. split; [| tauto].
    split; [intros Hx; congruence |].
    intros [[= Hx] _]. congruence. }
  cbn.
  assert (Hna : _mode s ≠ Py.Str MODE_AUTO).
  { intros Hx. apply py_eq_str in Hx. congruence. }
  assert (Hnb : _mode s ≠ Py.Str MODE_BOOST).
  { intros Hx. apply py_eq_str in Hx. congruence. }
  destruct (Py.eq (_mode s) (Py.Str MODE_MANUAL)) eqn:Em; cbn.
  - apply py_eq_str in Em.
    destruct (Py.eq (_target_temperature s) MIN_TEMPERATURE) eqn:Et.
    + split; [split; [congruence | tauto] |].
      split; [tauto |]. intros _ Hx. exfalso. apply Hx. tauto.
    + split; [split; [congruence | tauto] |].
      split; [| reflexivity].
      split; [congruence | intros [_ Hx]; discriminate].
  - assert (Hnm : _mode s ≠ Py.Str MODE_MANUAL).
    { intros Hx. apply py_eq_str in Hx. congruence. }
    split; [split; [congruence | tauto] |].
    split; [| reflexivity].
    split; [congruence | tauto].
Qed.

(** C5. [set_hvac_mode] makes one outgoing call whatever it is given, a
    [set_temperature] on the connection for the entity's device:
    minimum temperature and manual mode for [HVAC_MODE_OFF], the current
    target temperature and auto mode for [HVAC_MODE_AUTO], the current
    target temperature and manual mode for every other string.  The entity
    itself is left as it was. *)
Theorem set_hvac_mode_sends_one (mode : string) (w : world) :
  HVAC_MODE_OFF ≠ HVAC_MODE_AUTO →
  let s := self w in
  ∃ temperature command_mode,
    (set_hvac_mode fails mode w).2 =
      sent w (conn_set_temperature (_device_id s) temperature command_mode)
    ∧ (mode = HVAC_MODE_OFF →
         temperature = MIN_TEMPERATURE ∧ command_mode = Py.Str MODE_MANUAL)
    ∧ (mode = HVAC_MODE_AUTO →
         temperature = _target_temperature s
         ∧ command_mode = Py.Str MODE_AUTO)
    ∧ (mode ≠ HVAC_MODE_OFF → mode ≠ HVAC_MODE_AUTO →
         temperature = _target_temperature s
         ∧ command_mode = Py.Str MODE_MANUAL).
Proof.
  intros Hoa s. subst s.
  unfold set_hvac_mode, mbind, M_bind, get_self.
  destruct (String.eqb mode HVAC_MODE_OFF) eqn:Eo.
  - apply String.eqb_eq in Eo. subst mode.
    eexists _, _. split; [apply perform_sent |].
    repeat split; congruence.
  - apply String.eqb_neq in Eo.
    destruct (String.eqb mode HVAC_MODE_AUTO) eqn:Ea.
    + apply String.eqb_eq in Ea. subst mode.
      eexists _, _. split; [apply perform_sent |].
      repeat split; congruence.
    + apply String.eqb_neq in Ea.
      eexists _, _. split; [apply perform_sent |].
      repeat split; congruence.
Qed.

(** C8. Without a target temperature among the keyword arguments, or with
    [None] for it, [set_temperature] returns at once: no call reaches the
    connection and the entity is unchanged. *)
Theorem set_temperature_without_target (kwargs : gmap string Py.value) (w : world) :
  kwargs !! ATTR_TEMPERATURE = None
  ∨ kwargs !! ATTR_TEMPERATURE = Some Py.None →
  set_temperature fails kwargs w = (Returns tt, w).
Proof.
  intros Hk. unfold set_temperature, Py.get.
  destruct Hk as [-> | ->]; reflexivity.
Qed.

(** C9. With a target temperature, [set_temperature] forwards it to the
    connection together with the stored mode when that mode is truthy, and
    with [MODE_MANUAL] otherwise: so it is for a stored mode of [None],
    which is what a newly constructed entity has until an update sets it. *)
Theorem set_temperature_mode_default (kwargs : gmap string Py.value) (w : world) :
  Py.get kwargs ATTR_TEMPERATURE ≠ Py.None →
  let s := self w in
  ∃ command_mode,
    (set_temperature fails kwargs w).2 =
      sent w (conn_set_temperature
                (_device_id s) (Py.get kwargs ATTR_TEMPERATURE) command_mode)
    ∧ (Py.truthy (_mode s) = true → command_mode = _mode s)
    ∧ (Py.truthy (_mode s) = false → command_mode = Py.Str MODE_MANUAL)
    ∧ (_mode s = Py.None → command_mode = Py.Str MODE_MANUAL)
    ∧ (∀ device_id name w0,
         w = (__init__ fails device_id name w0).2 →
         command_mode = Py.Str MODE_MANUAL).
Proof.
  intros Hk s. subst s. unfold set_temperature.
  destruct (Py.is_none (Py.get kwargs ATTR_TEMPERATURE)) eqn:En.
  { apply py_is_none in En. contradiction. }
  exists (Py.or (_mode (self w)) (Py.Str MODE_MANUAL)).
  unfold mbind, M_bind, get_self. split; [apply perform_sent |].
  unfold Py.or. repeat split.
  - intros ->. reflexivity.
  - intros ->. reflexivity.
  - intros ->. reflexivity.
  - intros device_id name w0 ->.
    unfold __init__, mbind, M_bind, assign, get_self.
    rewrite perform_sent. reflexivity.
Qed.

(** C10. [set_preset_mode] sends a command for [PRESET_BOOST] only: the
    current target temperature in boost mode for the entity's device.  Any
    other preset, [PRESET_NONE] being one when the two names differ,
    returns with no outgoing call and no change of the entity. *)
Theorem set_preset_mode_boost_only (preset : string) (w : world) :
  let s := self w in
  (preset = PRESET_BOOST →
     (set_preset_mode fails preset w).2 =
       sent w (conn_set_temperature
                 (_device_id s) (_target_temperature s) (Py.Str MODE_BOOST)))
  ∧ (preset ≠ PRESET_BOOST →
       set_preset_mode fails preset w = (Returns tt, w))
  ∧ (PRESET_NONE ≠ PRESET_BOOST →
       set_preset_mode fails PRESET_NONE w = (Returns tt, w)).
Proof.
  intros s. subst s.
  assert (Hother : ∀ p, p ≠ PRESET_BOOST →
                        set_preset_mode fails p w = (Returns tt, w)).
  { intros p Hp. unfold set_preset_mode.
    apply String.eqb_neq in Hp. rewrite Hp. reflexivity. }
  split; [| split; [apply Hother | apply Hother]].
  intros ->. unfold set_preset_mode. rewrite String.eqb_refl.
  unfold mbind, M_bind, get_self. apply perform_sent.
Qed.

End Commands.

(** ** Pairing comes first *)

Section Lifecycle.

Context `{!Maxcul, !Component, !Hass}.
Variable fails : list effect → effect → bool.

Lemma extends_refl (w : world) : extends w w.
Proof.
  split; [reflexivity |]. exists []. split; [| constructor].
  symmetry. apply app_nil_r.
Qed.

Lemma extends_trans (w1 w2 w3 : world) :
  extends w1 w2 → extends w2 w3 → extends w1 w3.
Proof.
  intros [Hd1 (a1 & Hc1 & Hf1)] [Hd2 (a2 & Hc2 & Hf2)].
  split; [congruence |]. exists (a1 ++ a2). split.
  - rewrite Hc2, Hc1. symmetry. apply app_assoc.
  - apply Forall_app. split; [exact Hf1 |]. rewrite <- Hd1. exact Hf2.
Qed.

Lemma extends_sent (w : world) (e : effect) :
  command_for (_device_id (self w)) e → extends w (sent w e).
Proof.
  intros He. split; [reflexivity |]. exists [e]. split; [reflexivity |].
  constructor; [exact He | constructor].
Qed.

Lemma update_extends (payload : gmap string Py.value) (w : world) :
  extends w (update fails payload w).2.
Proof.
  destruct (Py.ne (Py.get payload ATTR_DEVICE_ID)
                  (Py.Int (_device_id (self w)))) eqn:Hne.
  - rewrite (update_foreign_equation fails payload w Hne). apply extends_refl.
  - unfold Py.ne in Hne. apply negb_false_iff in Hne.
    rewrite (update_addressed fails payload w Hne), perform_sent.
    split; [reflexivity |]. exists [async_schedule_update_ha_state].
    split; [reflexivity |]. constructor; [exact I | constructor].
Qed.

Lemma async_added_to_hass_extends (w : world) :
  extends w (async_added_to_hass fails w).2.
Proof.
  unfold async_added_to_hass, mbind, M_bind, get_self.
  pose proof (perform_sent fails
                (async_dispatcher_connect SIGNAL_THERMOSTAT_UPDATE) w) as Hp.
  destruct (perform fails (async_dispatcher_connect SIGNAL_THERMOSTAT_UPDATE) w)
    as [[[] |] w1]; cbn in Hp; subst w1.
  - rewrite perform_sent.
    apply (extends_trans _
             (sent w (async_dispatcher_connect SIGNAL_THERMOSTAT_UPDATE)));
      [apply extends_sent; exact I |].
    apply extends_sent. reflexivity.
  - apply extends_sent. exact I.
Qed.

Lemma invoke_extends (m : method) (w : world) :
  extends w (invoke fails m w).2.
Proof.
  destruct m as [| payload | kwargs | mode | preset]; cbn.
  - apply async_added_to_hass_extends.
  - apply update_extends.
  - unfold set_temperature.
    destruct (Py.is_none _); [apply extends_refl |].
    unfold mbind, M_bind, get_self. rewrite perform_sent.
    apply extends_sent. reflexivity.
  - unfold set_hvac_mode, mbind, M_bind, get_self.
    destruct (String.eqb mode HVAC_MODE_OFF);
      [| destruct (String.eqb mode HVAC_MODE_AUTO)];
      rewrite perform_sent; apply extends_sent; reflexivity.
  - unfold set_preset_mode.
    destruct (String.eqb preset PRESET_BOOST); [| apply extends_refl].
    unfold mbind, M_bind, get_self. rewrite perform_sent.
    apply extends_sent. reflexivity.
Qed.

Lemma drive_extends (ms : list method) (w : world) :
  extends w (drive fails ms w).
Proof.
  revert w. induction ms as [| m ms IH]; intros w; cbn.
  - apply extends_refl.
  - eapply extends_trans; [apply invoke_extends | apply IH].
Qed.

(** C6. Construction calls [add_paired_device] with the entity's device
    id, once and as its only outgoing call.  Every call the entity makes
    afterwards, through any sequence of its entry points, is appended
    behind that pairing call, and each [wakeup] and [set_temperature]
    among them names the paired device. *)
Theorem pairing_precedes_commands
    (device_id : Z) (name : string) (w0 : world) (ms : list method) :
  let w1 := (__init__ fails device_id name w0).2 in
  _device_id (self w1) = device_id
  ∧ calls w1 = calls w0 ++ [add_paired_device device_id]
  ∧ ∃ later,
      calls (drive fails ms w1) =
        calls w0 ++ add_paired_device device_id :: later
      ∧ Forall (command_for device_id) later.
Proof.
  intros w1.
  assert (Hw1 : w1 = sent {| self := self w1; calls := calls w0 |}
                          (add_paired_device device_id)
                ∧ _device_id (self w1) = device_id).
  { subst w1. unfold __init__, mbind, M_bind, assign, get_self.
    rewrite perform_sent. split; reflexivity. }
  destruct Hw1 as [Hsent Hid].
  assert (Hcalls : calls w1 = calls w0 ++ [add_paired_device device_id]).
  { rewrite Hsent. reflexivity. }
  split; [exact Hid |]. split; [exact Hcalls |].
  destruct (drive_extends ms w1) as [_ (later & Hc & Hf)].
  exists later. split.
  - rewrite Hc, Hcalls, <- app_assoc. reflexivity.
  - rewrite <- Hid. exact Hf.
Qed.

End Lifecycle.

(** ** The theorems at work on concrete inputs *)

Example update_measured_only :
  @update pymaxcul never_fails measured_only at_home =
    (Returns tt,
     {| self := set_current_temperature (Py.Float 20.5%float) living_room;
        calls := [add_paired_device 7; async_schedule_update_ha_state] |}).
Proof. reflexivity. Qed.

Example update_for_the_attic :
  @update pymaxcul never_fails for_the_attic {| self := attic; calls := [] |} =
    (Returns tt,
     {| self := set_mode (Py.Str "manual")
                  (set_target_temperature (Py.Float 17%float) attic);
        calls := [async_schedule_update_ha_state] |}).
Proof. reflexivity. Qed.

Example hvac_mode_off :
  @hvac_mode pymaxcul homeassistant
    (set_mode (Py.Str "manual")
       (set_target_temperature (Py.Float 4.5%float) living_room)) = "off".
Proof. reflexivity. Qed.

Example hvac_mode_unset : @hvac_mode pymaxcul homeassistant attic = "heat".
Proof. reflexivity. Qed.

Example construct_then_drive :
  calls (@drive pymaxcul component homeassistant never_fails
           [AsyncAddedToHass; Update for_the_attic; SetTemperature target_22;
            SetHvacMode "off"; SetPresetMode "boost"]
           (@__init__ never_fails 9 "attic" {| self := living_room; calls := [] |}).2) =
    [add_paired_device 9;
     async_dispatcher_connect "maxcul.thermostat_update";
     wakeup 9;
     async_schedule_update_ha_state;
     conn_set_temperature 9 (Py.Float 22%float) (Py.Str "manual");
     conn_set_temperature 9 (Py.Float 4.5%float) (Py.Str "manual");
     conn_set_temperature 9 (Py.Float 17%float) (Py.Str "boost")].
Proof. reflexivity. Qed.

Lemma update_partial_merge_witness :
  let s' := self (@update pymaxcul never_fails measured_only at_home).2 in
  _current_temperature s' = Py.Float 20.5%float
  ∧ _target_temperature s' = Py.Float 21%float
  ∧ _mode s' = Py.Str "auto".
Proof.
  assert (Heq : Py.eq (Py.get measured_only (@ATTR_DEVICE_ID pymaxcul))
                      (Py.Int (_device_id (self at_home))) = true)
    by reflexivity.
  destruct (@update_partial_merge pymaxcul never_fails measured_only at_home Heq)
    as (Hcur & _ & _ & _ & _ & Htgt & Hmode & _).
  split; [| split].
  - apply Hcur. discriminate.
  - apply Htgt. intros Hp. apply Hp. reflexivity.
  - apply Hmode. intros Hp. apply Hp. reflexivity.
Defined.

Lemma update_foreign_discarded_witness :
  @update pymaxcul always_fails for_the_attic at_home = (Returns tt, at_home)
  ∧ @update pymaxcul always_fails ∅ at_home = (Returns tt, at_home).
Proof.
  split.
  - apply update_foreign_discarded. left. reflexivity.
  - apply update_foreign_discarded. right. reflexivity.
Defined.

Lemma update_schedules_state_change_witness :
  @update pymaxcul always_fails manual_at_min at_home =
    @perform always_fails async_schedule_update_ha_state
      {| self := frost_guard; calls := [add_paired_device 7] |}
  ∧ self (@update pymaxcul always_fails manual_at_min at_home).2 = frost_guard
  ∧ calls (@update pymaxcul never_fails device_id_only at_home).2 =
      [add_paired_device 7; async_schedule_update_ha_state].
Proof.
  assert (Hmin : Py.eq (Py.get manual_at_min (@ATTR_DEVICE_ID pymaxcul))
                       (Py.Int (_device_id (self at_home))) = true)
    by reflexivity.
  assert (Hid : Py.eq (Py.get device_id_only (@ATTR_DEVICE_ID pymaxcul))
                      (Py.Int (_device_id (self at_home))) = true)
    by reflexivity.
  destruct (@update_schedules_state_change
              pymaxcul always_fails manual_at_min at_home Hmin)
    as (_ & _ & Hcall & Hself & _).
  split; [exact Hcall |]. split; [exact Hself |].
  exact (proj1 (@update_schedules_state_change
                  pymaxcul never_fails device_id_only at_home Hid)).
Defined.

Lemma hvac_mode_cases_witness :
  @hvac_mode pymaxcul homeassistant living_room = "auto".
Proof.
  refine (proj2 (proj1 (@hvac_mode_cases pymaxcul homeassistant living_room
                          _ _ _ _ _)) _);
    try discriminate.
  left. reflexivity.
Defined.

Lemma set_hvac_mode_sends_one_witness :
  ∃ temperature command_mode,
    (@set_hvac_mode pymaxcul homeassistant never_fails "off" at_home).2 =
      sent at_home (conn_set_temperature 7 temperature command_mode)
    ∧ temperature = Py.Float 4.5%float
    ∧ command_mode = Py.Str "manual".
Proof.
  assert (Hoa : @HVAC_MODE_OFF homeassistant ≠ @HVAC_MODE_AUTO homeassistant)
    by discriminate.
  destruct (@set_hvac_mode_sends_one pymaxcul homeassistant never_fails
              "off" at_home Hoa)
    as (temperature & command_mode & Hsent & Hoff & _).
  exists temperature, command_mode.
  split; [exact Hsent | apply Hoff; reflexivity].
Defined.

Lemma set_temperature_without_target_witness :
  @set_temperature pymaxcul homeassistant never_fails no_target at_home =
    (Returns tt, at_home).
Proof.
  apply set_temperature_without_target. left. reflexivity.
Defined.

Lemma set_temperature_mode_default_witness :
  ∃ command_mode,
    (@set_temperature pymaxcul homeassistant never_fails target_22
       {| self := attic; calls := [] |}).2 =
      sent {| self := attic; calls := [] |}
           (conn_set_temperature 9 (Py.Float 22%float) command_mode)
    ∧ command_mode = Py.Str "manual".
Proof.
  assert (Hk : Py.get target_22 (@ATTR_TEMPERATURE homeassistant) ≠ Py.None)
    by discriminate.
  destruct (@set_temperature_mode_default pymaxcul homeassistant never_fails
              target_22 {| self := attic; calls := [] |} Hk)
    as (command_mode & Hsent & _ & _ & Hnone & _).
  exists command_mode. split; [exact Hsent | apply Hnone; reflexivity].
Defined.

Lemma set_preset_mode_boost_only_witness :
  (@set_preset_mode pymaxcul homeassistant never_fails "boost" at_home).2 =
    sent at_home
         (conn_set_temperature 7 (Py.Float 21%float) (Py.Str "boost"))
  ∧ @set_preset_mode pymaxcul homeassistant never_fails "none" at_home =
      (Returns tt, at_home).
Proof.
  destruct (@set_preset_mode_boost_only pymaxcul homeassistant never_fails
              "boost" at_home) as (Hboost & _ & Hnone).
  split; [apply Hboost; reflexivity | apply Hnone; discriminate].
Defined.

(** ** More about the entity *)

Section Entity.

Context `{!Maxcul, !Component, !Hass, !HassConf}.
Variable fails : list effect → effect → bool.

(** The entity after [update], for every payload. *)
Lemma update_self (payload : gmap string Py.value) (w : world) :
  self (update fails payload w).2 =
    if addressed payload (self w) then absorbed payload (self w) else self w.
Proof.
  unfold addressed.
  destruct (Py.eq (Py.get payload ATTR_DEVICE_ID)
                  (Py.Int (_device_id (self w)))) eqn:Heq.
  - rewrite (update_addressed fails payload w Heq), perform_sent. reflexivity.
  - rewrite (update_foreign_equation fails payload w); [reflexivity |].
    unfold Py.ne. rewrite Heq. reflexivity.
Qed.

Lemma invoke_self (m : method) (w : world) :
  self (invoke fails m w).2 =
    match m with
    | Update payload =>
        if addressed payload (self w) then absorbed payload (self w)
        else self w
    | _ => self w
    end.
Proof.
  destruct m as [| payload | kwargs | mode | preset]; cbn.
  - unfold async_added_to_hass, mbind, M_bind, get_self.
    pose proof (perform_sent fails
                  (async_dispatcher_connect SIGNAL_THERMOSTAT_UPDATE) w) as Hp.
    destruct (perform fails (async_dispatcher_connect SIGNAL_THERMOSTAT_UPDATE) w)
      as [[[] |] w1]; cbn in Hp; subst w1; [rewrite perform_sent |];
      reflexivity.
  - apply update_self.
  - unfold set_temperature. destruct (Py.is_none _); [reflexivity |].
    unfold mbind, M_bind, get_self. rewrite perform_sent. reflexivity.
  - unfold set_hvac_mode, mbind, M_bind, get_self.
    destruct (String.eqb mode HVAC_MODE_OFF);
      [| destruct (String.eqb mode HVAC_MODE_AUTO)];
      rewrite perform_sent; reflexivity.
  - unfold set_preset_mode.
    destruct (String.eqb preset PRESET_BOOST); [| reflexivity].
    unfold mbind, M_bind, get_self. rewrite perform_sent. reflexivity.
Qed.

Lemma merged_known (old new : Py.value) :
  old ≠ Py.None → merged old new ≠ Py.None.
Proof. intros Hold. unfold merged. destruct new; cbn; (exact Hold || discriminate). Qed.

Lemma merged_twice (old new : Py.value) :
  merged (merged old new) new = merged old new.
Proof. unfold merged. destruct new; reflexivity. Qed.

(** X1. [async_added_to_hass] first connects the handler to the update
    signal and then wakes the entity's device, and changes no attribute.
    When connecting raises, the exception goes to the caller and the
    device is not woken. *)
Theorem added_to_hass_connects_then_wakes (w : world) :
  let connect := async_dispatcher_connect SIGNAL_THERMOSTAT_UPDATE in
  let wake := wakeup (_device_id (self w)) in
  let r := async_added_to_hass fails w in
  self r.2 = self w
  ∧ (fails (calls w) connect = false →
       calls r.2 = calls w ++ [connect; wake]
       ∧ r.1 = if fails (calls w ++ [connect]) wake
               then Raises else Returns tt)
  ∧ (fails (calls w) connect = true →
       calls r.2 = calls w ++ [connect] ∧ r.1 = Raises).
Proof.
  intros connect wake r. subst wake r.
  unfold async_added_to_hass, mbind, M_bind, get_self, perform.
  fold connect. cbn.
  destruct (fails (calls w) connect) eqn:Hc; cbn.
  - split; [reflexivity |]. split; [discriminate |].
    intros _. split; reflexivity.
  - clear Hc. rewrite <- app_assoc.
    destruct (fails (calls w ++ [connect]) _);
      (split; [reflexivity |]; split; [| discriminate]);
      intros _; split; reflexivity.
Qed.

(** X2. The command methods and [async_added_to_hass] never write an
    attribute of the entity: over any sequence of entry points without an
    update, the entity is what it was, whatever was sent and whatever
    raised.  What the entity reports changes through updates only. *)
Theorem commands_leave_entity (ms : list method) (w : world) :
  Forall (λ m, is_update m = false) ms →
  self (drive fails ms w) = self w.
Proof.
  intros Hms. revert w.
  induction Hms as [| m ms Hm _ IH]; intros w; cbn; [reflexivity |].
  rewrite IH, invoke_self. destruct m; (reflexivity || discriminate).
Qed.

(** X3. Name and device id are fixed at construction: no sequence of
    entry points, updates included, changes what [name] and [unique_id]
    return. *)
Theorem identity_is_fixed (ms : list method) (w : world) :
  name (self (drive fails ms w)) = name (self w)
  ∧ unique_id (self (drive fails ms w)) = unique_id (self w).
Proof.
  revert w. induction ms as [| m ms IH]; intros w; cbn; [split; reflexivity |].
  destruct (IH (invoke fails m w).2) as [Hn Hd].
  rewrite Hn, Hd, invoke_self.
  destruct m; try (split; reflexivity).
  destruct (addressed _ _); split; reflexivity.
Qed.

(** X4. An attribute that holds a value never goes back to [None]: for
    each of measured temperature, target temperature, mode and battery-low,
    a value other than [None] before any sequence of entry points means a
    value other than [None] after it. *)
Theorem known_stays_known (ms : list method) (w : world) :
  let s := self w in
  let s' := self (drive fails ms w) in
  (_current_temperature s ≠ Py.None → _current_temperature s' ≠ Py.None)
  ∧ (_target_temperature s ≠ Py.None → _target_temperature s' ≠ Py.None)
  ∧ (_mode s ≠ Py.None → _mode s' ≠ Py.None)
  ∧ (_battery_low s ≠ Py.None → _battery_low s' ≠ Py.None).
Proof.
  cbn zeta. revert w. induction ms as [| m ms IH]; intros w; cbn.
  { repeat split; intros Hk; exact Hk. }
  destruct (IH (invoke fails m w).2) as (Hc & Ht & Hm & Hb).
  rewrite invoke_self in Hc, Ht, Hm, Hb.
  assert (Hstep : ∀ (field : MaxThermostat → Py.value) payload,
            (field (absorbed payload (self w)) =
               merged (field (self w)) (Py.get payload ATTR_MEASURED_TEMPERATURE)
             ∨ field (absorbed payload (self w)) =
               merged (field (self w)) (Py.get payload ATTR_DESIRED_TEMPERATURE)
             ∨ field (absorbed payload (self w)) =
               merged (field (self w)) (Py.get payload ATTR_MODE)
             ∨ field (absorbed payload (self w)) =
               merged (field (self w)) (Py.get payload ATTR_BATTERY_LOW)) →
            field (self w) ≠ Py.None →
            field (if addressed payload (self w)
                   then absorbed payload (self w) else self w) ≠ Py.None).
  { intros field payload Hf Hk. destruct (addressed _ _); [| exact Hk].
    destruct Hf as [-> | [-> | [-> | ->]]]; apply merged_known; exact Hk. }
  destruct m as [| payload | kwargs | mode | preset]; try (repeat split; assumption).
  repeat split; intros Hk.
  - apply Hc. apply (Hstep _current_temperature); [left; reflexivity | exact Hk].
  - apply Ht. apply (Hstep _target_temperature);
      [right; left; reflexivity | exact Hk].
  - apply Hm. apply (Hstep _mode); [right; right; left; reflexivity | exact Hk].
  - apply Hb. apply (Hstep _battery_low);
      [right; right; right; reflexivity | exact Hk].
Qed.

(** X5. Taking in the same payload a second time changes no attribute:
    a repeated update is harmless for what the entity reports.  This
    holds for every payload, addressed to the entity or not. *)
Theorem update_twice_same_entity (payload : gmap string Py.value) (w : world) :
  self (update fails payload (update fails payload w).2).2 =
    self (update fails payload w).2.
Proof.
  rewrite !update_self.
  destruct (addressed payload (self w)) eqn:Ha; [| rewrite Ha; reflexivity].
  assert (Ha' : addressed payload (absorbed payload (self w)) = true)
    by exact Ha.
  rewrite Ha'. unfold absorbed. cbn. rewrite !merged_twice. reflexivity.
Qed.

(** X6. Two payloads addressed to the entity, one after the other: every
    attribute ends with the value of the second payload where it has one,
    else with the value of the first where that has one, else with what
    was stored before. *)
Theorem update_later_payload_wins (first second : gmap string Py.value) (w : world) :
  addressed first (self w) = true →
  addressed second (self w) = true →
  let s := self w in
  let s' := self (update fails second (update fails first w).2).2 in
  Forall (λ '(attribute, key),
            attribute s' =
              if Py.is_none (Py.get second key)
              then if Py.is_none (Py.get first key)
                   then attribute s
                   else Py.get first key
              else Py.get second key)
         attribute_keys.
Proof.
  intros Hfst Hsnd s s'. subst s s'. rewrite !update_self, Hfst.
  assert (Hsnd' : addressed second (absorbed first (self w)) = true)
    by exact Hsnd.
  rewrite Hsnd'. unfold attribute_keys, absorbed, merged. cbn.
  repeat constructor.
Qed.

(** X8. One payload never reaches two thermostats: of two entities with
    different device ids, at least one drops it.  The device id of the
    payload may be an int, a bool or a float; the comparison with the
    entity's int is exact. *)
Theorem update_reaches_one_device (payload : gmap string Py.value) (w1 w2 : world) :
  _device_id (self w1) ≠ _device_id (self w2) →
  update fails payload w1 = (Returns tt, w1)
  ∨ update fails payload w2 = (Returns tt, w2).
Proof.
  intros Hdiff.
  destruct (Py.ne (Py.get payload ATTR_DEVICE_ID)
                  (Py.Int (_device_id (self w1)))) eqn:E1;
    [left; apply update_foreign_equation; exact E1 |].
  destruct (Py.ne (Py.get payload ATTR_DEVICE_ID)
                  (Py.Int (_device_id (self w2)))) eqn:E2;
    [right; apply update_foreign_equation; exact E2 |].
  exfalso. apply Hdiff. unfold Py.ne in E1, E2.
  apply negb_false_iff in E1, E2.
  exact (py_eq_int_inj _ _ _ E1 E2).
Qed.

End Entity.

(** X7. What an update does to the attributes does not depend on the
    framework: whether [async_schedule_update_ha_state] returns or raises,
    the entity ends up the same, so an exception there rolls nothing
    back. *)
Theorem update_merge_survives_failure `{!Maxcul}
    (fails fails' : list effect → effect → bool)
    (payload : gmap string Py.value) (w : world) :
  self (update fails payload w).2 = self (update fails' payload w).2
  ∧ (addressed payload (self w) = true →
     fails (calls w) async_schedule_update_ha_state = true →
     update fails payload w =
       (Raises, {| self := absorbed payload (self w);
                   calls := calls w ++ [async_schedule_update_ha_state] |})).
Proof.
  split; [rewrite (update_self fails), (update_self fails'); reflexivity |].
  intros Ha Hf. rewrite (update_addressed fails payload w Ha).
  unfold perform. cbn. rewrite Hf. reflexivity.
Qed.

(** ** Reported modes, battery level and the first commands *)

Section Reports.

Context `{!Maxcul, !Component, !Hass, !HassConf}.
Variable fails : list effect → effect → bool.

Lemma merged_present (old new : Py.value) :
  new ≠ Py.None → merged old new = new.
Proof. unfold merged. destruct new; cbn; (reflexivity || contradiction). Qed.

Lemma merged_self (v : Py.value) : merged v v = v.
Proof. unfold merged. destruct v; reflexivity. Qed.

Lemma set_hvac_mode_self (mode : string) (w : world) :
  self (set_hvac_mode fails mode w).2 = self w.
Proof.
  unfold set_hvac_mode, mbind, M_bind, get_self.
  destruct (String.eqb mode HVAC_MODE_OFF);
    [| destruct (String.eqb mode HVAC_MODE_AUTO)];
    rewrite perform_sent; reflexivity.
Qed.

(** X10. The boost preset shows as the auto HVAC mode: [preset_mode] is
    [PRESET_BOOST] exactly when the stored mode is [MODE_BOOST], and
    [hvac_mode] is then [HVAC_MODE_AUTO].  The two preset names are taken
    to be distinct. *)
Theorem preset_boost_is_hvac_auto (s : MaxThermostat) :
  PRESET_BOOST ≠ PRESET_NONE →
  (preset_mode s = PRESET_BOOST ↔ _mode s = Py.Str MODE_BOOST)
  ∧ (preset_mode s = PRESET_BOOST → hvac_mode s = HVAC_MODE_AUTO).
Proof.
  intros Hbn. unfold preset_mode, hvac_mode, Py.in_strs. cbn.
  destruct (Py.eq (_mode s) (Py.Str MODE_BOOST)) eqn:Eb.
  - rewrite orb_true_r. apply py_eq_str in Eb. split; [tauto | reflexivity].
  - split; [| congruence]. split; [congruence |].
    intros Hm. apply py_eq_str in Hm. congruence.
Qed.

(** X11. What the entity reports is on offer: [hvac_mode] is one of
    [hvac_modes] and [preset_mode] one of [preset_modes], in every state
    of the entity. *)
Theorem reported_modes_are_listed (s : MaxThermostat) :
  hvac_mode s ∈ hvac_modes ∧ preset_mode s ∈ preset_modes.
Proof.
  unfold hvac_mode, preset_mode, hvac_modes, preset_modes. split.
  - destruct (Py.in_strs _ _); [| destruct (_ && _)]; set_solver.
  - destruct (Py.eq _ _); set_solver.
Qed.

(** X12. [set_hvac_mode] followed by the thermostat reporting back the
    temperature and mode it was sent.  Asking for auto shows as auto, and
    asking for off shows as off.  Asking for anything else shows as heat,
    unless the stored target temperature equals [MIN_TEMPERATURE]: then the
    command repeats that temperature in manual mode and the entity shows
    off again. *)
Theorem set_hvac_mode_then_report
    (mode : string) (payload : gmap string Py.value) (w : world)
    (temperature command_mode : Py.value) :
  MODE_MANUAL ≠ MODE_AUTO → MODE_MANUAL ≠ MODE_BOOST →
  (set_hvac_mode fails mode w).2 =
    sent w (conn_set_temperature
              (_device_id (self w)) temperature command_mode) →
  addressed payload (self w) = true →
  Py.get payload ATTR_DESIRED_TEMPERATURE = temperature →
  Py.get payload ATTR_MODE = command_mode →
  let s' := self (update fails payload (set_hvac_mode fails mode w).2).2 in
  (mode = HVAC_MODE_AUTO → HVAC_MODE_OFF ≠ HVAC_MODE_AUTO →
     hvac_mode s' = HVAC_MODE_AUTO)
  ∧ (mode = HVAC_MODE_OFF →
     MIN_TEMPERATURE ≠ Py.None →
     Py.eq MIN_TEMPERATURE MIN_TEMPERATURE = true →
     hvac_mode s' = HVAC_MODE_OFF)
  ∧ (mode ≠ HVAC_MODE_OFF → mode ≠ HVAC_MODE_AUTO →
     hvac_mode s' =
       if Py.eq (_target_temperature (self w)) MIN_TEMPERATURE
       then HVAC_MODE_OFF else HVAC_MODE_HEAT).
Proof.
  intros Hma Hmb Hsent Haddr Ht Hm s'. subst s'.
  rewrite update_self, set_hvac_mode_self, Haddr.
  apply String.eqb_neq in Hma, Hmb.
  assert (Hcmd : ∀ t m,
            (perform fails (conn_set_temperature (_device_id (self w)) t m) w).2
              = sent w (conn_set_temperature
                          (_device_id (self w)) temperature command_mode) →
            temperature = t ∧ command_mode = m).
  { intros t m. rewrite perform_sent. unfold sent. intros [= Hc].
    apply app_inv_head in Hc. injection Hc as -> ->. split; reflexivity. }
  unfold set_hvac_mode, mbind, M_bind, get_self in Hsent.
  unfold hvac_mode, absorbed, Py.in_strs. cbn. rewrite Ht, Hm.
  destruct (String.eqb mode HVAC_MODE_OFF) eqn:Eo.
  - apply String.eqb_eq in Eo. destruct (Hcmd _ _ Hsent) as [-> ->].
    split; [intros; congruence |]. split; [| intros; congruence].
    intros _ Hnone Hrefl. rewrite (merged_present _ _ Hnone).
    cbn. rewrite Hma, Hmb, String.eqb_refl, Hrefl. reflexivity.
  - apply String.eqb_neq in Eo.
    destruct (String.eqb mode HVAC_MODE_AUTO) eqn:Ea.
    + apply String.eqb_eq in Ea. destruct (Hcmd _ _ Hsent) as [-> ->].
      split; [| split; intros; congruence].
      intros _ _. cbn. rewrite String.eqb_refl. reflexivity.
    + apply String.eqb_neq in Ea. destruct (Hcmd _ _ Hsent) as [-> ->].
      split; [intros; congruence |]. split; [intros; congruence |].
      intros _ _. rewrite merged_self. cbn.
      rewrite Hma, Hmb, String.eqb_refl. cbn. reflexivity.
Qed.

(** X13. The battery level follows the updates: 100 for a new entity; after
    a payload addressed to the entity that says something about the
    battery, 5 when what it says is truthy and 100 when not; and what it
    was when the payload has nothing on the battery. *)
Theorem battery_level_follows_updates (payload : gmap string Py.value) (w : world) :
  addressed payload (self w) = true →
  let s' := self (update fails payload w).2 in
  let reported := Py.get payload ATTR_BATTERY_LOW in
  (reported = Py.None →
     device_state_attributes s' = device_state_attributes (self w))
  ∧ (reported ≠ Py.None →
     device_state_attributes s' !! ATTR_BATTERY_LEVEL =
       Some (Py.Int (if Py.truthy reported then 5 else 100)))
  ∧ (∀ device_id name w0,
       device_state_attributes (self (__init__ fails device_id name w0).2)
         !! ATTR_BATTERY_LEVEL = Some (Py.Int 100)).
Proof.
  intros Haddr s' reported. subst s' reported.
  rewrite update_self, Haddr. unfold device_state_attributes, absorbed. cbn.
  split; [| split].
  - intros ->. reflexivity.
  - intros Hp. rewrite (merged_present _ _ Hp). apply lookup_singleton_eq.
  - intros device_id name w0.
    unfold __init__, mbind, M_bind, assign, get_self.
    rewrite perform_sent. cbn. apply lookup_singleton_eq.
Qed.

Lemma drive_without_target (ms : list method) (w : world) :
  Forall without_target ms →
  _target_temperature (self w) = Py.None →
  _target_temperature (self (drive fails ms w)) = Py.None.
Proof.
  intros Hms. revert w.
  induction Hms as [| m ms Hm _ IH]; intros w Hw; cbn; [exact Hw |].
  apply IH. rewrite invoke_self.
  destruct m as [| payload | kwargs | mode | preset]; try exact Hw.
  destruct (addressed _ _); [| exact Hw].
  cbn in Hm |- *. rewrite Hm, Hw. reflexivity.
Qed.

(** X14. Until an update brings a desired temperature, the entity has no
    target temperature, and the commands that send the current target
    send [None]: [set_hvac_mode] for every mode but off, and
    [set_preset_mode] for boost. *)
Theorem no_target_before_first_report
    (device_id : Z) (name : string) (w0 : world)
    (ms : list method) (mode : string) :
  Forall without_target ms →
  let w := drive fails ms (__init__ fails device_id name w0).2 in
  target_temperature (self w) = Py.None
  ∧ (mode ≠ HVAC_MODE_OFF →
     ∃ command_mode,
       (set_hvac_mode fails mode w).2 =
         sent w (conn_set_temperature device_id Py.None command_mode))
  ∧ (set_preset_mode fails PRESET_BOOST w).2 =
      sent w (conn_set_temperature device_id Py.None (Py.Str MODE_BOOST)).
Proof.
  intros Hms w.
  assert (Hinit : self (__init__ fails device_id name w0).2
                  = fresh device_id name).
  { unfold __init__, mbind, M_bind, assign, get_self.
    rewrite perform_sent. reflexivity. }
  assert (Htarget : _target_temperature (self w) = Py.None).
  { subst w. apply drive_without_target; [exact Hms |].
    rewrite Hinit. reflexivity. }
  assert (Hid : _device_id (self w) = device_id).
  { subst w.
    destruct (drive_extends fails ms (__init__ fails device_id name w0).2)
      as [-> _].
    rewrite Hinit. reflexivity. }
  split; [exact Htarget |]. split.
  - intros Hoff. apply String.eqb_neq in Hoff.
    unfold set_hvac_mode, mbind, M_bind, get_self. rewrite Hoff, Htarget, Hid.
    destruct (String.eqb mode HVAC_MODE_AUTO);
      eexists; apply perform_sent.
  - unfold set_preset_mode. rewrite String.eqb_refl.
    unfold mbind, M_bind, get_self. rewrite Htarget, Hid. apply perform_sent.
Qed.

End Reports.

(** ** Setting up the platform *)

Section PlatformSetup.

Context `{!Maxcul, !ComponentData}.
Variable fails : list effect → effect → bool.
Variable add_entities_fails : platform → list MaxThermostat → bool.

(** Constructing an entity is one pairing call, and the entity exists if
    that call returns. *)
Lemma MaxThermostat_new_equation (device_id : Z) (name : string)
    (history : list effect) :
  MaxThermostat_new fails device_id name history =
    (if fails history (add_paired_device device_id)
     then Raises else Returns (fresh device_id name),
     history ++ [add_paired_device device_id]).
Proof.
  unfold MaxThermostat_new, __init__, mbind, M_bind, assign, get_self, perform.
  cbn. destruct (fails history _); reflexivity.
Qed.

Lemma pairing_raises_head (history : list effect) (item : string * device)
    (rest : list (string * device)) :
  pairing_raises fails history (item :: rest) 0 =
    fails history (pairing_of item).
Proof. unfold pairing_raises. cbn. rewrite app_nil_r. reflexivity. Qed.

Lemma pairing_raises_tail (history : list effect) (item : string * device)
    (rest : list (string * device)) (k : nat) :
  pairing_raises fails history (item :: rest) (S k) =
    pairing_raises fails (history ++ [pairing_of item]) rest k.
Proof.
  unfold pairing_raises. cbn. destruct (rest !! k); [| reflexivity].
  rewrite <- app_assoc. reflexivity.
Qed.

(** The comprehension when every pairing returns. *)
Lemma construct_devices_all (items : list (string * device))
    (history : list effect) :
  (∀ k, pairing_raises fails history items k = false) →
  construct_devices fails items history =
    (Returns (map entity_of items), history ++ map pairing_of items).
Proof.
  revert history. induction items as [| [key d] rest IH]; intros history Hok.
  { cbn. rewrite app_nil_r. reflexivity. }
  cbn. rewrite MaxThermostat_new_equation.
  pose proof (Hok 0%nat) as Hhead. rewrite pairing_raises_head in Hhead.
  unfold pairing_of in Hhead. cbn in Hhead. rewrite Hhead.
  rewrite IH.
  - rewrite <- app_assoc. reflexivity.
  - intros k. rewrite <- (pairing_raises_tail history (key, d)). apply Hok.
Qed.

(** The comprehension when the pairing at position [k] is the first to
    raise. *)
Lemma construct_devices_stops (items : list (string * device))
    (history : list effect) (k : nat) :
  (∀ j, (j < k)%nat → pairing_raises fails history items j = false) →
  pairing_raises fails history items k = true →
  construct_devices fails items history =
    (Raises, history ++ map pairing_of (take (S k) items)).
Proof.
  revert history k.
  induction items as [| [key d] rest IH]; intros history k Hbefore Hk.
  { unfold pairing_raises in Hk. cbn in Hk. discriminate. }
  cbn [construct_devices]. rewrite MaxThermostat_new_equation.
  destruct k as [| k].
  - rewrite pairing_raises_head in Hk. unfold pairing_of in Hk. cbn in Hk.
    rewrite Hk. cbn. reflexivity.
  - pose proof (Hbefore 0%nat ltac:(lia)) as Hhead.
    rewrite pairing_raises_head in Hhead.
    unfold pairing_of in Hhead. cbn in Hhead. rewrite Hhead.
    rewrite pairing_raises_tail in Hk.
    rewrite (IH (history ++ [add_paired_device (conf_id d)]) k).
    + cbn. rewrite <- app_assoc. reflexivity.
    + intros j Hj. rewrite <- (pairing_raises_tail history (key, d)).
      apply Hbefore. lia.
    + exact Hk.
Qed.

(** X15. With devices configured and the connection in [hass.data],
    [setup_platform] pairs the devices one by one in the order of the
    configuration.  When every pairing returns, it hands one new entity per
    device to [add_entities] in one call, in that order, named after the
    entry's own name or else its key, and returns or raises as that call
    does.  When a pairing raises, [setup_platform] raises with the
    devices up to that one paired and no other: the devices after it are
    not paired and [add_entities] is not called. *)
Theorem setup_platform_pairs_in_order
    (hass_data : gset string) (items : list (string * device))
    (p : platform) :
  DATA_MAXCUL_CONNECTION ∈ hass_data →
  let history := connection_calls p in
  let run := setup_platform fails add_entities_fails hass_data (Some items) p in
  ((∀ k, pairing_raises fails history items k = false) →
     run =
       (if add_entities_fails
             {| connection_calls := history ++ map pairing_of items;
                added_entities := added_entities p |}
             (map entity_of items)
        then Raises else Returns tt,
        {| connection_calls := history ++ map pairing_of items;
           added_entities := added_entities p ++ [map entity_of items] |}))
  ∧ (∀ k, (∀ j, (j < k)%nat → pairing_raises fails history items j = false) →
          pairing_raises fails history items k = true →
          run =
            (Raises,
             {| connection_calls :=
                  history ++ map pairing_of (take (S k) items);
                added_entities := added_entities p |})).
Proof.
  intros Hconn history run. subst history run. unfold setup_platform.
  destruct (decide (DATA_MAXCUL_CONNECTION ∈ hass_data)); [| contradiction].
  split.
  - intros Hok. rewrite (construct_devices_all items _ Hok). reflexivity.
  - intros k Hbefore Hk.
    rewrite (construct_devices_stops items _ k Hbefore Hk). reflexivity.
Qed.

(** X16. With a connection on which pairing does not raise,
    [setup_platform] pairs every configured device and then calls
    [add_entities] once with all the entities; it returns when that call
    returns and raises when it raises.  For an empty devices dict that is
    no pairing at all and a call of [add_entities] with an empty list. *)
Theorem setup_platform_adds_all
    (hass_data : gset string) (items : list (string * device))
    (p : platform) :
  DATA_MAXCUL_CONNECTION ∈ hass_data →
  (∀ h device_id, fails h (add_paired_device device_id) = false) →
  let paired :=
    {| connection_calls := connection_calls p ++ map pairing_of items;
       added_entities := added_entities p |} in
  setup_platform fails add_entities_fails hass_data (Some items) p =
    (if add_entities_fails paired (map entity_of items)
     then Raises else Returns tt,
     {| connection_calls := connection_calls paired;
        added_entities := added_entities p ++ [map entity_of items] |})
  ∧ setup_platform fails add_entities_fails hass_data (Some []) p =
      (if add_entities_fails p [] then Raises else Returns tt,
       {| connection_calls := connection_calls p;
          added_entities := added_entities p ++ [[]] |}).
Proof.
  intros Hconn Hpair paired. subst paired. unfold setup_platform.
  destruct (decide (DATA_MAXCUL_CONNECTION ∈ hass_data)); [| contradiction].
  split.
  - rewrite construct_devices_all; [reflexivity |].
    intros k. unfold pairing_raises. destruct (items !! k); [| reflexivity].
    apply Hpair.
  - destruct p as [history added]. reflexivity.
Qed.

(** X17. The two ways [setup_platform] stops before pairing anything.  A
    configuration without devices key makes it return at once, whether or
    not there is a connection.  A configuration with devices, an empty dict
    included, and no connection under [DATA_MAXCUL_CONNECTION] in
    [hass.data] makes it raise; no device is paired and [add_entities] is
    not called. *)
Theorem setup_platform_stops_early
    (hass_data : gset string) (items : list (string * device))
    (p : platform) :
  setup_platform fails add_entities_fails hass_data None p = (Returns tt, p)
  ∧ (DATA_MAXCUL_CONNECTION ∉ hass_data →
     setup_platform fails add_entities_fails hass_data (Some items) p =
       (Raises, p)).
Proof.
  split; [reflexivity |].
  intros Hmiss. unfold setup_platform.
  destruct (decide (DATA_MAXCUL_CONNECTION ∈ hass_data)); [contradiction |].
  reflexivity.
Qed.

End PlatformSetup.

(** ** The further theorems at work on concrete inputs *)

Example setup_two_devices :
  @setup_platform component_data never_fails add_entities_returns
    with_connection (Some two_devices) untouched =
    (Returns tt,
     {| connection_calls := [add_paired_device 7; add_paired_device 9];
        added_entities := [[fresh 7 "living room"; fresh 9 "attic"]] |}).
Proof. vm_compute. reflexivity. Qed.

Example setup_add_entities_raises :
  @setup_platform component_data never_fails add_entities_raises
    with_connection (Some two_devices) untouched =
    (Raises,
     {| connection_calls := [add_paired_device 7; add_paired_device 9];
        added_entities := [[fresh 7 "living room"; fresh 9 "attic"]] |}).
Proof. vm_compute. reflexivity. Qed.

Example setup_stops_at_attic :
  @setup_platform component_data only_seven add_entities_returns
    with_connection (Some three_devices) untouched =
    (Raises,
     {| connection_calls := [add_paired_device 7; add_paired_device 9];
        added_entities := [] |}).
Proof. vm_compute. reflexivity. Qed.

Example battery_warning_taken :
  @device_state_attributes homeassistant_conf
    (self (@update pymaxcul never_fails battery_warning at_home).2)
    !! "battery_level" = Some (Py.Int 5).
Proof. vm_compute. reflexivity. Qed.

Lemma added_to_hass_connects_then_wakes_witness :
  calls (@async_added_to_hass component never_fails at_home).2 =
    [add_paired_device 7;
     async_dispatcher_connect "maxcul.thermostat_update";
     wakeup 7].
Proof.
  destruct (@added_to_hass_connects_then_wakes component never_fails at_home)
    as (_ & Hok & _).
  exact (proj1 (Hok eq_refl)).
Defined.

Lemma commands_leave_entity_witness :
  self (@drive pymaxcul component homeassistant never_fails
          [SetTemperature target_22; SetHvacMode "off";
           SetPresetMode "boost"; AsyncAddedToHass] at_home) = living_room.
Proof.
  apply (@commands_leave_entity pymaxcul component homeassistant).
  repeat constructor.
Defined.

Lemma known_stays_known_witness :
  _mode (self (@drive pymaxcul component homeassistant never_fails
                 [Update device_id_only; Update measured_only] at_home))
    ≠ Py.None.
Proof.
  destruct (@known_stays_known pymaxcul component homeassistant never_fails
              [Update device_id_only; Update measured_only] at_home)
    as (_ & _ & Hmode & _).
  apply Hmode. discriminate.
Defined.

Lemma update_later_payload_wins_witness :
  let s' := self (@update pymaxcul never_fails manual_at_min
                    (@update pymaxcul never_fails measured_only at_home).2).2 in
  Forall (λ '(attribute, key),
            attribute s' =
              if Py.is_none (Py.get manual_at_min key)
              then if Py.is_none (Py.get measured_only key)
                   then attribute living_room
                   else Py.get measured_only key
              else Py.get manual_at_min key)
         (@attribute_keys pymaxcul).
Proof.
  exact (@update_later_payload_wins pymaxcul never_fails
           measured_only manual_at_min at_home eq_refl eq_refl).
Defined.

Lemma update_merge_survives_failure_witness :
  @update pymaxcul always_fails measured_only at_home =
    (Raises,
     {| self := set_current_temperature (Py.Float 20.5%float) living_room;
        calls := [add_paired_device 7; async_schedule_update_ha_state] |}).
Proof.
  exact (proj2 (@update_merge_survives_failure pymaxcul
                  always_fails never_fails measured_only at_home)
               eq_refl eq_refl).
Defined.

Lemma update_reaches_one_device_witness :
  @update pymaxcul never_fails for_the_attic at_home = (Returns tt, at_home)
  ∨ @update pymaxcul never_fails for_the_attic {| self := attic; calls := [] |} =
      (Returns tt, {| self := attic; calls := [] |}).
Proof.
  apply update_reaches_one_device. cbn. discriminate.
Defined.

Lemma preset_boost_is_hvac_auto_witness :
  @hvac_mode pymaxcul homeassistant boosting = "auto".
Proof.
  apply (proj2 (@preset_boost_is_hvac_auto pymaxcul homeassistant boosting
                  ltac:(discriminate))).
  reflexivity.
Defined.

Lemma set_hvac_mode_then_report_witness :
  @hvac_mode pymaxcul homeassistant
    (self (@update pymaxcul never_fails manual_at_min
             (@set_hvac_mode pymaxcul homeassistant never_fails "heat"
                {| self := frost_guard; calls := [] |}).2).2) = "off".
Proof.
  destruct (@set_hvac_mode_then_report pymaxcul homeassistant never_fails
              "heat" manual_at_min {| self := frost_guard; calls := [] |}
              (Py.Float 4.5%float) (Py.Str "manual")
              ltac:(discriminate) ltac:(discriminate)
              eq_refl eq_refl eq_refl eq_refl)
    as (_ & _ & Hheat).
  apply Hheat; discriminate.
Defined.

Lemma battery_level_follows_updates_witness :
  @device_state_attributes homeassistant_conf
    (self (@update pymaxcul never_fails battery_warning at_home).2)
    !! "battery_level" = Some (Py.Int 5).
Proof.
  destruct (@battery_level_follows_updates pymaxcul homeassistant_conf
              never_fails battery_warning at_home eq_refl)
    as (_ & Hlow & _).
  apply Hlow. discriminate.
Defined.

Lemma no_target_before_first_report_witness :
  @target_temperature
    (self (@drive pymaxcul component homeassistant never_fails
             [AsyncAddedToHass; Update measured_only]
             (@__init__ never_fails 7 "living room"
                {| self := unset; calls := [] |}).2)) = Py.None.
Proof.
  refine (proj1 (@no_target_before_first_report pymaxcul component homeassistant
                   never_fails 7 "living room" {| self := unset; calls := [] |}
                   [AsyncAddedToHass; Update measured_only] "heat" _)).
  repeat constructor.
Defined.

Lemma with_connection_has_it :
  @DATA_MAXCUL_CONNECTION component_data ∈ with_connection.
Proof. apply elem_of_singleton. reflexivity. Qed.

Lemma setup_platform_pairs_in_order_witness :
  @setup_platform component_data only_seven add_entities_returns
    with_connection (Some three_devices) after_device_3 =
    (Raises,
     {| connection_calls :=
          [add_paired_device 3; add_paired_device 7; add_paired_device 9];
        added_entities := [[fresh 3 "hall"]] |})
  ∧ @setup_platform component_data never_fails add_entities_raises
      with_connection (Some two_devices) after_device_3 =
      (Raises,
       {| connection_calls :=
            [add_paired_device 3; add_paired_device 7; add_paired_device 9];
          added_entities :=
            [[fresh 3 "hall"]; [fresh 7 "living room"; fresh 9 "attic"]] |}).
Proof.
  split.
  - refine (proj2 (@setup_platform_pairs_in_order component_data only_seven
                     add_entities_returns with_connection three_devices
                     after_device_3 with_connection_has_it) 1%nat _ _).
    + intros [| j] Hj; [reflexivity | lia].
    + reflexivity.
  - refine (proj1 (@setup_platform_pairs_in_order component_data never_fails
                     add_entities_raises with_connection two_devices
                     after_device_3 with_connection_has_it) _).
    intros k. unfold pairing_raises.
    destruct (two_devices !! k); reflexivity.
Defined.

Lemma setup_platform_adds_all_witness :
  @setup_platform component_data never_fails add_entities_returns
    with_connection (Some two_devices) after_device_3 =
    (Returns tt,
     {| connection_calls :=
          [add_paired_device 3; add_paired_device 7; add_paired_device 9];
        added_entities :=
          [[fresh 3 "hall"]; [fresh 7 "living room"; fresh 9 "attic"]] |}).
Proof.
  refine (proj1 (@setup_platform_adds_all component_data never_fails
                   add_entities_returns with_connection two_devices
                   after_device_3 with_connection_has_it _)).
  intros h device_id. reflexivity.
Defined.

Lemma setup_platform_stops_early_witness :
  @setup_platform component_data never_fails add_entities_returns
    ∅ (Some two_devices) after_device_3 = (Raises, after_device_3).
Proof.
  apply (proj2 (@setup_platform_stops_early component_data never_fails
                  add_entities_returns ∅ two_devices after_device_3)).
  apply not_elem_of_empty.
Defined.
